(** * Shallow embedding of the electronics-ai backend (FastAPI + llama_index)

    Files embedded:
    - [src/backend/main.py]: [QueryRequest.query_not_empty], [process_response], [ask],
      [ask_stream];
    - [src/backend/ai_engine/ai_engine.py]: [initialize_environment],
      [validate_storage_files], [ask_ai] with its [lru_cache],
      [ask_ai_streaming], [learn_from_interaction];
    - [src/backend/ai_engine/index.py]: [build_index], [validate_index_files],
      [load_or_build_index] (with llama_index's [from_vector_store] check);
    - [src/backend/utils.py]: [load_or_build_index], [learn_from_interaction].

    Python [str] values are modelled as Rocq [string]s, i.e. strings whose
    characters lie in the Latin-1 range (code points 0..255); CPython stores
    such strings in its one-byte (UCS1) representation, which is what the
    string hash of [main.py] reads.  External libraries (llama_index, faiss,
    redis, json) appear as parameters or as small explicit models. *)

From Stdlib Require Import String Ascii List Bool ZArith Lia.
Import ListNotations.
Open Scope string_scope.

(* ------------------------------------------------------------------ *)
(** ** Python exceptions and the error monad *)

Inductive PyExc :=
| FileNotFoundError (msg : string)
| ValueError (msg : string)
| IndexError (msg : string)
| PersistError (msg : string)      (* any exception raised by a persist call *)
| LoadError (msg : string)         (* any exception raised while loading an index *)
| GenerationError (msg : string)   (* any exception raised by retrieval/generation *)
| AttributeError (msg : string)
| RecursionError (msg : string)
| OSError (msg : string)
| HTTPException (status_code : nat) (detail : string).

Inductive Exc (A : Type) :=
| Ok (a : A)
| Raise (e : PyExc).
Arguments Ok {A} a.
Arguments Raise {A} e.

Definition exc_bind {A B} (m : Exc A) (k : A -> Exc B) : Exc B :=
  match m with
  | Ok a => k a
  | Raise e => Raise e
  end.

Notation "'let*' x ':=' m 'in' k" := (exc_bind m (fun x => k))
  (at level 200, x name, m at level 100, k at level 200).

(* ------------------------------------------------------------------ *)
(** ** Python string helpers (Latin-1 range) *)

Module PyStr.
Local Open Scope nat_scope.

(** [str.isspace] on code points 0..255. *)
Definition isspace (c : ascii) : bool :=
  let n := nat_of_ascii c in
  ((9 <=? n) && (n <=? 13)) || ((28 <=? n) && (n <=? 32))
  || (n =? 133) || (n =? 160).

Fixpoint lstrip (s : string) : string :=
  match s with
  | EmptyString => EmptyString
  | String c r => if isspace c then lstrip r else s
  end.

Definition rev_str (s : string) : string :=
  string_of_list_ascii (List.rev (list_ascii_of_string s)).

(** [str.strip()] with no argument. *)
Definition strip (s : string) : string := rev_str (lstrip (rev_str (lstrip s))).

(** [str.lower] on code points 0..255. *)
Definition lower_char (c : ascii) : ascii :=
  let n := nat_of_ascii c in
  if ((65 <=? n) && (n <=? 90)) || ((192 <=? n) && (n <=? 222) && negb (n =? 215))
  then ascii_of_nat (n + 32) else c.

Fixpoint lower (s : string) : string :=
  match s with
  | EmptyString => EmptyString
  | String c r => String (lower_char c) (lower r)
  end.

Fixpoint startswith (p s : string) : bool :=
  match p, s with
  | EmptyString, _ => true
  | String a p', String b s' => Ascii.eqb a b && startswith p' s'
  | _, _ => false
  end.

(** [p in s] for strings. *)
Fixpoint contains (p s : string) : bool :=
  startswith p s ||
  match s with
  | EmptyString => false
  | String _ s' => contains p s'
  end.

(** [s[:n]] *)
Definition slice_to (n : nat) (s : string) : string := substring 0 n s.

(** Truthiness of a [str]: [not v] holds exactly for the empty string. *)
Definition truthy (s : string) : bool :=
  match s with EmptyString => false | _ => true end.

End PyStr.

(* ------------------------------------------------------------------ *)
(** ** main.py: request validation and [process_response] *)

Record QueryRequest := {
  query : string;
  context : option string
}.

Definition query_empty_msg := "Query cannot be empty".

(** [QueryRequest.query_not_empty]:
<<
        if not v or not v.strip():
            raise ValueError("Query cannot be empty")
        return v[:1000]
>> *)
Definition query_not_empty (v : string) : Exc string :=
  if negb (PyStr.truthy v) || negb (PyStr.truthy (PyStr.strip v))
  then Raise (ValueError query_empty_msg)
  else Ok (PyStr.slice_to 1000 v).

(** The normalisation the spec describes (trim, then cap at 1000
    characters); used only to compare with [query_not_empty]. *)
Definition spec_normalize_query (v : string) : string :=
  PyStr.slice_to 1000 (PyStr.strip v).

(** [process_response]: three branches, each returning [response]. *)
Definition process_response (response : string) : string :=
  if PyStr.contains "datasheet" (PyStr.lower response) then response
  else if PyStr.contains "specification" (PyStr.lower response) then response
  else response.

Example strip_ex : PyStr.strip "  hi there " = "hi there".
Proof. reflexivity. Qed.

Example query_not_empty_ex1 : query_not_empty "   " = Raise (ValueError query_empty_msg).
Proof. reflexivity. Qed.

Example query_not_empty_ex2 : query_not_empty " hi " = Ok " hi ".
Proof. reflexivity. Qed.

(* ------------------------------------------------------------------ *)
(** ** CPython's [hash] on [str] (Python/pyhash.c)

    [hash(s)] for a non-empty one-byte string is SipHash-1-3 (the default
    since CPython 3.11; SipHash-2-4 before) of the string's bytes, keyed by
    the per-process secret [_Py_HashSecret.siphash.k0/k1], read as a signed
    64-bit [Py_hash_t], with [-1] mapped to [-2]; [hash("") = 0].  The secret
    is drawn at random at interpreter start-up unless [PYTHONHASHSEED] fixes
    it. *)

Module PyHash.
Local Open Scope Z_scope.

Definition mask64 : Z := Z.ones 64.
Definition add64 (a b : Z) : Z := Z.land (a + b) mask64.
Definition rotl64 (x : Z) (r : Z) : Z :=
  Z.land (Z.lor (Z.shiftl x r) (Z.shiftr x (64 - r))) mask64.

Record sip_state := { v0 : Z; v1 : Z; v2 : Z; v3 : Z }.

(** [HALF_ROUND(a,b,c,d,s,t)]:
    [a += b; c += d; b = ROTATE(b, s) ^ a; d = ROTATE(d, t) ^ c; a = ROTATE(a, 32);] *)
Definition half_round (a b c d s t : Z) : Z * Z * Z * Z :=
  let a := add64 a b in
  let c := add64 c d in
  let b := Z.lxor (rotl64 b s) a in
  let d := Z.lxor (rotl64 d t) c in
  let a := rotl64 a 32 in
  (a, b, c, d).

(** [SINGLE_ROUND]: [HALF_ROUND(v0,v1,v2,v3,13,16); HALF_ROUND(v2,v1,v0,v3,17,21);] *)
Definition single_round (st : sip_state) : sip_state :=
  let '(a0, a1, a2, a3) := half_round st.(v0) st.(v1) st.(v2) st.(v3) 13 16 in
  let '(b2, b1, b0, b3) := half_round a2 a1 a0 a3 17 21 in
  {| v0 := b0; v1 := b1; v2 := b2; v3 := b3 |}.

Fixpoint rounds (n : nat) (st : sip_state) : sip_state :=
  match n with
  | O => st
  | S k => rounds k (single_round st)
  end.

(** Little-endian load of at most 8 bytes. *)
Fixpoint le_load (bs : list Z) : Z :=
  match bs with
  | [] => 0
  | b :: r => Z.lor b (Z.shiftl (le_load r) 8)
  end.

(** The compression loop over 8-byte words; [fuel] bounds the recursion. *)
Fixpoint compress (c : nat) (fuel : nat) (bs : list Z) (st : sip_state)
  : sip_state * list Z :=
  match fuel with
  | O => (st, bs)
  | S fuel' =>
      if Nat.leb 8 (length bs) then
        let mi := le_load (firstn 8 bs) in
        let st := {| v0 := st.(v0); v1 := st.(v1); v2 := st.(v2);
                     v3 := Z.lxor st.(v3) mi |} in
        let st := rounds c st in
        let st := {| v0 := Z.lxor st.(v0) mi; v1 := st.(v1); v2 := st.(v2);
                     v3 := st.(v3) |} in
        compress c fuel' (skipn 8 bs) st
      else (st, bs)
  end.

(** SipHash-c-d of a byte sequence under the key [(k0, k1)]. *)
Definition siphash (c d : nat) (k0 k1 : Z) (bs : list Z) : Z :=
  let b := Z.land (Z.shiftl (Z.of_nat (length bs)) 56) mask64 in
  let st := {| v0 := Z.lxor k0 0x736f6d6570736575;
               v1 := Z.lxor k1 0x646f72616e646f6d;
               v2 := Z.lxor k0 0x6c7967656e657261;
               v3 := Z.lxor k1 0x7465646279746573 |} in
  let '(st, tail) := compress c (length bs) bs st in
  let b := Z.lor b (le_load tail) in
  let st := {| v0 := st.(v0); v1 := st.(v1); v2 := st.(v2); v3 := Z.lxor st.(v3) b |} in
  let st := rounds c st in
  let st := {| v0 := Z.lxor st.(v0) b; v1 := st.(v1);
               v2 := Z.lxor st.(v2) 0xff; v3 := st.(v3) |} in
  let st := rounds d st in
  Z.lxor (Z.lxor st.(v0) st.(v1)) (Z.lxor st.(v2) st.(v3)).

Definition siphash13 := siphash 1 3.

(** The per-process hash secret. *)
Record HashSecret := { k0 : Z; k1 : Z }.

Definition to_signed64 (x : Z) : Z := if x <? 2 ^ 63 then x else x - 2 ^ 64.

Definition str_bytes (s : string) : list Z :=
  map (fun c => Z.of_nat (nat_of_ascii c)) (list_ascii_of_string s).

(** [_Py_HashBytes] on the UCS1 buffer of [s]. *)
Definition str_hash (sec : HashSecret) (s : string) : Z :=
  match s with
  | EmptyString => 0
  | _ =>
      let x := to_signed64 (siphash13 sec.(k0) sec.(k1) (str_bytes s)) in
      if x =? -1 then -2 else x
  end.

(** [str(n)] for an integer. *)
Fixpoint digits_pos (fuel : nat) (n : Z) (acc : string) : string :=
  match fuel with
  | O => acc
  | S f =>
      let acc := String (ascii_of_nat (48 + Z.to_nat (n mod 10))) acc in
      if n <? 10 then acc else digits_pos f (n / 10) acc
  end.

Definition z_to_str (n : Z) : string :=
  if n <? 0 then String "-" (digits_pos 25 (- n) "")
  else digits_pos 25 n "".

End PyHash.

(** The key computed in [ask]:
    [cache_key = f"query:{hash(request.query + (request.context or ''))}"] *)
Definition cache_key (sec : PyHash.HashSecret) (req : QueryRequest) : string :=
  "query:" ++ PyHash.z_to_str
                (PyHash.str_hash sec (req.(query) ++ match req.(context) with
                                                     | Some c => c
                                                     | None => ""
                                                     end)).

(** Reference vectors of SipHash-2-4 (key 00 01 .. 0f). *)
Example siphash24_empty :
  PyHash.siphash 2 4 0x0706050403020100 0x0f0e0d0c0b0a0908 [] = 0x726fdb47dd0e0e31%Z.
Proof. vm_compute. reflexivity. Qed.

Example siphash24_15 :
  PyHash.siphash 2 4 0x0706050403020100 0x0f0e0d0c0b0a0908
    (map Z.of_nat (seq 0 15)) = 0xa129ca6149be45e5%Z.
Proof. vm_compute. reflexivity. Qed.

Example z_to_str_ex : PyHash.z_to_str (-1203) = "-1203" /\ PyHash.z_to_str 0 = "0".
Proof. split; reflexivity. Qed.

(* ------------------------------------------------------------------ *)
(** ** ai_engine.py: [@lru_cache(maxsize=128)] around [ask_ai]

    CPython's bounded LRU wrapper (Modules/_functoolsmodule.c): a hit moves
    the entry to the most-recently-used end and returns the stored result
    without calling the function; a miss calls the function, does not cache
    a raised exception, and stores the result, evicting the least recently
    used entry when [maxsize] entries are already present.  The cache is a
    list, most recently used first. *)

Definition LruCache := list (string * string).

Definition lru_maxsize : nat := 128.

Fixpoint lru_get (q : string) (c : LruCache) : option string :=
  match c with
  | [] => None
  | (k, v) :: r => if String.eqb k q then Some v else lru_get q r
  end.

Definition remove_key (q : string) (c : LruCache) : LruCache :=
  filter (fun kv => negb (String.eqb (fst kv) q)) c.

(** One call of the wrapped function: result, new cache, and whether the
    wrapped function (retrieval and generation) actually ran. *)
Definition lru_call (f : string -> Exc string) (c : LruCache) (q : string)
  : Exc string * LruCache * bool :=
  match lru_get q c with
  | Some v => (Ok v, (q, v) :: remove_key q c, false)
  | None =>
      match f q with
      | Raise e => (Raise e, c, true)
      | Ok v =>
          let c' := if Nat.ltb (length c) lru_maxsize then c else removelast c in
          (Ok v, (q, v) :: c', true)
      end
  end.

(** A sequence of calls, each with the query and the state of the world
    (the un-memoised [ask_ai] body) at the time of the call. *)
Fixpoint lru_run (c : LruCache) (calls : list (string * (string -> Exc string)))
  : LruCache :=
  match calls with
  | [] => c
  | (q, f) :: rest => lru_run (snd (fst (lru_call f c q))) rest
  end.

(* ------------------------------------------------------------------ *)
(** ** The vector index (llama_index [VectorStoreIndex] over faiss)

    The index keeps its nodes in insertion order together with their
    embeddings: the docstore entries and the rows of the flat faiss index. *)

Definition Embedding := list Z.

Record TextNode := {
  node_id : string;
  node_text : string
}.

Record Index := {
  idx_nodes : list (TextNode * Embedding)
}.

Section Embed.
(** The embedding provider ([Settings.embed_model]), deterministic. *)
Variable embed : string -> Embedding.

(** [index.insert_nodes(nodes)]: embed each node and append it to the
    docstore and to the faiss index. *)
Definition insert_nodes (idx : Index) (ns : list TextNode) : Index :=
  {| idx_nodes := (idx.(idx_nodes) ++ map (fun n => (n, embed n.(node_text))) ns)%list |}.

End Embed.

(* ------------------------------------------------------------------ *)
(** ** ai_engine.py: [learn_from_interaction] *)

Definition nl : string := String (ascii_of_nat 10) EmptyString.

(** [f"Q: {query}\nA: {answer}"] *)
Definition combined_text (q a : string) : string :=
  "Q: " ++ q ++ nl ++ "A: " ++ a.

Inductive LogEntry :=
| LogInfo (msg : string)
| LogError (msg : string).

Record LearnOutcome := {
  lo_index : option Index;     (* the in-memory index after the call *)
  lo_log : list LogEntry;      (* what was logged for operators *)
  lo_result : Exc unit         (* normal return or the exception raised *)
}.

Section Learn.
Variable embed : string -> Embedding.

(** [learn_from_interaction(query, answer)]
<<
    try:
        index = load_or_build_index()
        combined_text = f"Q: {query}\nA: {answer}"
        node = TextNode(text=combined_text)
        index.insert_nodes([node])
        try:
            index.storage_context.vector_store.persist(...)
            logger.info(...)
        except Exception as e:
            logger.error(f"Failed to persist index: {str(e)}")
            raise
    except Exception as e:
        logger.error(f"Failed to learn from interaction: {str(e)}", exc_info=True)
        raise
>>
    [load] is the outcome of [load_or_build_index()] at this call, [new_id]
    the fresh id [TextNode] draws, [persist] the vector store's persist. *)
Definition learn_from_interaction (load : Exc Index) (new_id : string)
    (persist : Index -> Exc unit) (q a : string) : LearnOutcome :=
  match load with
  | Raise e =>
      {| lo_index := None;
         lo_log := [LogError "Failed to learn from interaction"];
         lo_result := Raise e |}
  | Ok index =>
      let node := {| node_id := new_id; node_text := combined_text q a |} in
      let index := insert_nodes embed index [node] in
      match persist index with
      | Ok tt =>
          {| lo_index := Some index;
             lo_log := [LogInfo "Learned from interaction and updated the index"];
             lo_result := Ok tt |}
      | Raise e =>
          {| lo_index := Some index;
             lo_log := [LogError "Failed to persist index";
                        LogError "Failed to learn from interaction"];
             lo_result := Raise e |}
      end
  end.

End Learn.

(* ------------------------------------------------------------------ *)
(** ** main.py: the [/ask] route *)

(** A Redis entry: the stored [json.dumps({"response": result})], kept as
    the [response] field it decodes to, and the expiry set with [ex=]. *)
Record CacheEntry := {
  ce_response : string;
  ce_ttl : Z
}.

(** Live (non-expired) Redis keys. *)
Definition RedisStore := list (string * CacheEntry).

Fixpoint redis_get (k : string) (r : RedisStore) : option CacheEntry :=
  match r with
  | [] => None
  | (k', e) :: rest => if String.eqb k' k then Some e else redis_get k rest
  end.

Definition redis_set (k : string) (e : CacheEntry) (r : RedisStore) : RedisStore :=
  (k, e) :: filter (fun kv => negb (String.eqb (fst kv) k)) r.

Definition cache_ttl : Z := 3600.

Record World := {
  w_redis : option RedisStore;   (* [redis_client], [None] when not connected *)
  w_lru : LruCache               (* [ask_ai]'s lru_cache *)
}.

Inductive Reply :=
| Response (response : string) (cached : bool)
| ErrorResponse (status_code : nat) (detail : string).

(** Observable calls made while serving a request. *)
Inductive Event :=
| EvGenerate (q : string)                        (* body of [ask_ai] ran *)
| EvLearn (q a : string)                         (* [learn_from_interaction] called *)
| EvCacheSet (k : string) (e : CacheEntry).      (* [redis_client.set] *)

Definition error_500 : Reply := ErrorResponse 500 "Error processing query".

Section Ask.
Variable sec : PyHash.HashSecret.
(** The un-memoised body of [ask_ai] (load index, retrieve top 15, generate). *)
Variable gen : string -> Exc string.
(** The outcome of [learn_from_interaction(query, answer)]. *)
Variable learn : string -> string -> Exc unit.

(** [ask(request)]; any exception inside the [try] becomes HTTP 500. *)
Definition ask (w : World) (req : QueryRequest) : World * Reply * list Event :=
  let key := cache_key sec req in
  let hit := match w.(w_redis) with
             | Some r => redis_get key r
             | None => None
             end in
  match hit with
  | Some ce => (w, Response (process_response ce.(ce_response)) true, [])
  | None =>
      let '(res, lru', called) := lru_call gen w.(w_lru) req.(query) in
      let w1 := {| w_redis := w.(w_redis); w_lru := lru' |} in
      let ev1 := if called then [EvGenerate req.(query)] else [] in
      match res with
      | Raise _ => (w1, error_500, ev1)
      | Ok result =>
          let processed_result := process_response result in
          match learn req.(query) result with
          | Raise _ => (w1, error_500, (ev1 ++ [EvLearn req.(query) result])%list)
          | Ok _ =>
              let entry := {| ce_response := result; ce_ttl := cache_ttl |} in
              match w.(w_redis) with
              | Some r =>
                  ({| w_redis := Some (redis_set key entry r); w_lru := lru' |},
                   Response processed_result false,
                   (ev1 ++ [EvLearn req.(query) result; EvCacheSet key entry])%list)
              | None =>
                  (w1, Response processed_result false,
                   (ev1 ++ [EvLearn req.(query) result])%list)
              end
          end
      end
  end.

End Ask.

(* ------------------------------------------------------------------ *)
(** ** index.py: the file system *)

Module Fs.

(** Regular files by path; directories are implicit. *)
Definition FS := list (string * string).

Fixpoint get (p : string) (fs : FS) : option string :=
  match fs with
  | [] => None
  | (p', c) :: rest => if String.eqb p' p then Some c else get p rest
  end.

Definition del (p : string) (fs : FS) : FS :=
  filter (fun pc => negb (String.eqb (fst pc) p)) fs.

Definition put (p c : string) (fs : FS) : FS := (p, c) :: del p fs.

(** [os.path.join] for a relative directory and a file name. *)
Definition join (d f : string) : string := d ++ "/" ++ f.

(** The primitive file-system operations [build_index] performs. *)
Inductive FsOp :=
| MakeDirs (d : string)            (* [os.makedirs(d, exist_ok=True)] *)
| WriteFile (p c : string)         (* a complete write of file [p] *)
| Rename (src dst : string)        (* [os.rename] of one file *)
| RmDir (d : string).              (* [os.rmdir] of an empty directory *)

Definition apply_op (fs : FS) (op : FsOp) : FS :=
  match op with
  | MakeDirs _ | RmDir _ => fs
  | WriteFile p c => put p c fs
  | Rename s d =>
      match get s fs with
      | Some c => put d c (del s fs)
      | None => fs
      end
  end.

(** The disk after the first [k] operations: what a process restarted after
    an interruption at that point, or a concurrent reader, finds. *)
Definition run_ops (fs : FS) (ops : list FsOp) : FS := fold_left apply_op ops fs.

Definition crash_after (k : nat) (ops : list FsOp) (fs : FS) : FS :=
  run_ops fs (firstn k ops).

End Fs.

(* ------------------------------------------------------------------ *)
(** ** index.py: constants *)

Definition STORAGE_DIR := "data/faiss".
Definition DATASHEET_DIR := "data/datasheets".
Definition FAISS_INDEX_PATH := "data/faiss/faiss_index.index".
Definition temp_path := Fs.join STORAGE_DIR "temp_index".

(** An entry of [data/datasheets]: a file with its contents, or a
    sub-directory (such as [learned/]). *)
Inductive DirEntry :=
| FileEntry (name contents : string)
| SubDir (name : string).

Record Document := { doc_text : string }.

(* ------------------------------------------------------------------ *)
(** ** index.py: [build_index] *)

Section Build.
Variable embed : string -> Embedding.
(** [SentenceSplitter(chunk_size=512, chunk_overlap=20).get_nodes_from_documents]. *)
Variable get_chunked_documents : list Document -> list TextNode.
(** [storage_context.persist(persist_dir=...)]: the files it writes (name,
    contents), including the faiss vector store's own file. *)
Variable storage_files : Index -> list (string * string).
(** [faiss.write_index] contents. *)
Variable faiss_bytes : Index -> string.

(** [SimpleDirectoryReader(DATASHEET_DIR).load_data()]: one document per
    non-hidden regular file of the directory (not recursive); raises
    [ValueError] when there is no such file. *)
Definition doc_of_entry (e : DirEntry) : list Document :=
  match e with
  | FileEntry n c => if PyStr.startswith "." n then [] else [{| doc_text := c |}]
  | SubDir _ => []
  end.

Definition simple_directory_reader (es : list DirEntry) : Exc (list Document) :=
  let docs := flat_map doc_of_entry es in
  match docs with
  | [] => Raise (ValueError "No files found in data/datasheets.")
  | _ => Ok docs
  end.

(** The index construction part of [build_index]: the guard, loading,
    chunking ([documents[0]] raises [IndexError] on an empty list) and
    embedding of every node.  [listing] is [os.listdir(DATASHEET_DIR)],
    [None] when the directory does not exist. *)
Definition build_index (listing : option (list DirEntry)) : Exc Index :=
  match listing with
  | None | Some [] =>
      Raise (FileNotFoundError "No datasheets found in 'data/datasheets'.")
  | Some es =>
      let* docs := simple_directory_reader es in
      let documents := get_chunked_documents docs in
      match documents with
      | [] => Raise (IndexError "list index out of range")
      | _ => Ok (insert_nodes embed {| idx_nodes := [] |} documents)
      end
  end.

(** The persistence part of [build_index], as the sequence of file-system
    operations it issues; [listed] is [os.listdir(temp_path)].
<<
    os.makedirs(STORAGE_DIR, exist_ok=True)
    temp_path = os.path.join(STORAGE_DIR, "temp_index")
    storage_context.persist(persist_dir=temp_path)
    for f in os.listdir(temp_path):
        os.rename(os.path.join(temp_path, f), os.path.join(STORAGE_DIR, f))
    os.rmdir(temp_path)
    faiss.write_index(faiss_index, FAISS_INDEX_PATH)
    os.makedirs(STORAGE_DIR, exist_ok=True)
    faiss.write_index(faiss_index, FAISS_INDEX_PATH)
>> *)
Definition build_persist_ops (idx : Index) (listed : list string) : list Fs.FsOp :=
  [Fs.MakeDirs STORAGE_DIR]
  ++ map (fun nc => Fs.WriteFile (Fs.join temp_path (fst nc)) (snd nc)) (storage_files idx)
  ++ map (fun f => Fs.Rename (Fs.join temp_path f) (Fs.join STORAGE_DIR f)) listed
  ++ [Fs.RmDir temp_path;
      Fs.WriteFile FAISS_INDEX_PATH (faiss_bytes idx);
      Fs.MakeDirs STORAGE_DIR;
      Fs.WriteFile FAISS_INDEX_PATH (faiss_bytes idx)].

(** The snapshot as a reader of [STORAGE_DIR] sees it: the faiss file and
    every file of the storage context, by path. *)
Definition snapshot_paths (idx : Index) : list string :=
  FAISS_INDEX_PATH :: map (fun nc => Fs.join STORAGE_DIR (fst nc)) (storage_files idx).

Definition snapshot_view (paths : list string) (fs : Fs.FS) : list (option string) :=
  map (fun p => Fs.get p fs) paths.

(** The complete snapshot of [idx], as it is laid out in [STORAGE_DIR]. *)
Definition snapshot_of (idx : Index) : list (option string) :=
  Some (faiss_bytes idx) :: map (fun nc => Some (snd nc)) (storage_files idx).

End Build.

(* ------------------------------------------------------------------ *)
(** ** index.py: [validate_index_files] and [load_or_build_index] *)

Section Load.
(** [json.loads(f.read().decode('utf-8', errors='replace'))]: [None] when it
    raises [JSONDecodeError]. *)
Variable J : Type.
Variable json_loads : string -> option J.
(** [faiss.read_index]: [None] when it raises. *)
Variable F : Type.
Variable faiss_read_index : string -> option F.
(** [StorageContext.from_defaults(persist_dir=STORAGE_DIR, ...)]: [None] when it raises. *)
Variable St : Type.
Variable storage_from_defaults : Fs.FS -> option St.

Definition required_files : list string :=
  [FAISS_INDEX_PATH; Fs.join STORAGE_DIR "docstore.json";
   Fs.join STORAGE_DIR "index_store.json"].

Definition ends_with_json (p : string) : bool :=
  PyStr.startswith "nosj." (PyStr.rev_str p).

(** The loop of [validate_index_files]: the first missing file or JSON file
    that does not parse makes it return [False]. *)
Fixpoint validate_files (fs : Fs.FS) (files : list string) : bool :=
  match files with
  | [] => true
  | file :: rest =>
      match Fs.get file fs with
      | None => false
      | Some c =>
          if ends_with_json file then
            match json_loads c with
            | None => false
            | Some _ => validate_files fs rest
            end
          else validate_files fs rest
      end
  end.

Definition validate_index_files (fs : Fs.FS) : bool :=
  validate_files fs required_files.

Inductive Loaded :=
| FromSnapshot (faiss_index : F) (storage : St)   (* [VectorStoreIndex.from_vector_store] *)
| Rebuilt (idx : Index).                          (* [build_index()] *)

(** The part of a llama_index vector store that
    [VectorStoreIndex.from_vector_store] reads. *)
Record VectorStore := {
  vs_faiss_index : F;
  stores_text : bool
}.

(** [FaissVectorStore(faiss_index=faiss_index)]: the class declares
    [stores_text: bool = False]. *)
Definition FaissVectorStore (fi : F) : VectorStore :=
  {| vs_faiss_index := fi; stores_text := false |}.

(** [VectorStoreIndex.from_vector_store(vector_store, storage_context=...)]:
<<
        if not vector_store.stores_text:
            raise ValueError(
                "Cannot initialize from a vector store that does not store text."
            )
>> *)
Definition from_vector_store (vs : VectorStore) (st : St) : Exc Loaded :=
  if vs.(stores_text) then Ok (FromSnapshot vs.(vs_faiss_index) st)
  else Raise (ValueError "Cannot initialize from a vector store that does not store text.").

(** [load_or_build_index()].  [build n] is the outcome of the [n]-th call
    (counting from 0) of [build_index()] during this call: the [try] body
    calls it when validation fails, and the [except] clause calls it again
    when the body raised, including when that first [build_index()] raised.
    The pair is the outcome of the [try] body and the number of
    [build_index()] calls it made. *)
Definition load_or_build_index (build : nat -> Exc Index) (fs : Fs.FS) : Exc Loaded :=
  let '(body, calls) :=
    if validate_index_files fs then
      (match Fs.get FAISS_INDEX_PATH fs with
       | None => Raise (LoadError "faiss.read_index: cannot open file")
       | Some blob =>
           match faiss_read_index blob with
           | None => Raise (LoadError "faiss.read_index")
           | Some faiss_index =>
               let vector_store := FaissVectorStore faiss_index in
               match storage_from_defaults fs with
               | None => Raise (LoadError "StorageContext.from_defaults")
               | Some storage_context => from_vector_store vector_store storage_context
               end
           end
       end, 0)
    else ((let* idx := build 0 in Ok (Rebuilt idx)), 1) in
  match body with
  | Ok index => Ok index
  | Raise _ => let* idx := build calls in Ok (Rebuilt idx)
  end.

End Load.

(* ------------------------------------------------------------------ *)
(** ** ai_engine.py: start-up files *)

(** Outcome of [json.load(f)] on a file opened with [encoding="utf-8"]. *)
Inductive JsonLoad :=
| JParsed
| JDecodeError                 (* [json.JSONDecodeError] *)
| JUnicodeError                (* [UnicodeDecodeError], a [ValueError] but not a [JSONDecodeError] *)
| JOtherError (e : PyExc).     (* any other exception: [RecursionError] on deeply
                                  nested input, [OSError] on reading, ... *)

Section StartUp.
Variable json_load : string -> JsonLoad.
(** [os.makedirs(path, exist_ok=True)]: [Some e] when it raises [e] (for
    instance [FileExistsError] when a regular file has that name). *)
Variable makedirs : string -> option PyExc.
(** [open(vector_store_path, 'w')] followed by [json.dump({}, f)]: [Some e]
    when it raises [e]. *)
Variable write_error : option PyExc.
(** [Path(__file__).parent.parent], the backend directory. *)
Variable base_dir : string.

Definition REQUIRED_DIRS : list string := ["data/simple"; "data/datasheets/learned"].

Definition vector_store_path : string :=
  Fs.join (Fs.join (Fs.join base_dir "data") "simple") "vector_store.json".

(** The [for dir_path in REQUIRED_DIRS] loop: the first [makedirs] that
    raises stops it. *)
Fixpoint make_required_dirs (ds : list string) : option PyExc :=
  match ds with
  | [] => None
  | d :: rest =>
      match makedirs (Fs.join base_dir d) with
      | Some e => Some e
      | None => make_required_dirs rest
      end
  end.

Definition write_empty_store (fs : Fs.FS) : Exc Fs.FS :=
  match write_error with
  | Some e => Raise e
  | None => Ok (Fs.put vector_store_path "{}" fs)
  end.

(** [initialize_environment()] (directories are implicit in [Fs.FS]):
<<
        for dir_path in REQUIRED_DIRS:
            os.makedirs(base_dir / dir_path, exist_ok=True)
        vector_store_path = base_dir / "data/simple" / "vector_store.json"
        if not vector_store_path.exists():
            with open(vector_store_path, 'w', encoding="utf-8") as f:
                json.dump({}, f)
        else:
            try:
                with open(vector_store_path, 'r', encoding="utf-8") as f:
                    json.load(f)
            except json.JSONDecodeError as e:
                with open(vector_store_path, 'w', encoding="utf-8") as f:
                    json.dump({}, f)
>>
    any other exception is logged and re-raised. *)
Definition initialize_environment (fs : Fs.FS) : Exc Fs.FS :=
  match make_required_dirs REQUIRED_DIRS with
  | Some e => Raise e
  | None =>
      match Fs.get vector_store_path fs with
      | None => write_empty_store fs
      | Some c =>
          match json_load c with
          | JParsed => Ok fs
          | JDecodeError => write_empty_store fs
          | JUnicodeError => Raise (ValueError "'utf-8' codec can't decode")
          | JOtherError e => Raise e
          end
      end
  end.

(** [validate_storage_files()]: a [JSONDecodeError] and, through the outer
    [except Exception], every other exception are turned into [False]. *)
Definition validate_storage_files (fs : Fs.FS) : bool :=
  match Fs.get vector_store_path fs with
  | None => false
  | Some c =>
      match json_load c with
      | JParsed => true
      | _ => false
      end
  end.

End StartUp.

(* ------------------------------------------------------------------ *)
(** ** ai_engine.py: [ask_ai_streaming]; main.py: [/ask-stream] *)

(** The [response_gen] attribute of the query engine's response:
    a synchronous generator, an asynchronous generator (its tokens and,
    possibly, the exception that stops it), or absent / [None]. *)
Inductive TokenGen :=
| SyncGen (tokens : list string)
| AsyncGen (tokens : list string) (failure : option PyExc)
| NoGen.

Record StreamResult := {
  sr_gen : TokenGen;
  sr_str : string      (* [str(response)] *)
}.

Definition stream_error_msg : string :=
  "[Error] Something went wrong during response streaming]".

(** [ask_ai_streaming(query)] as the list of fragments it yields; [engine]
    is [load_or_build_index()] followed by [query_engine.query(query)].
    [async for] over a synchronous generator raises [TypeError] before the
    first token, which the [except] clause turns into the error fragment. *)
Definition ask_ai_streaming (engine : string -> Exc StreamResult) (q : string) : list string :=
  match engine q with
  | Raise _ => [stream_error_msg]
  | Ok r =>
      match r.(sr_gen) with
      | SyncGen _ => [stream_error_msg]
      | AsyncGen toks None => toks
      | AsyncGen toks (Some _) => app toks [stream_error_msg]
      | NoGen => [r.(sr_str)]
      end
  end.

(** [ask_stream(request)]: [body_query] is [data.get("query")], [None] when
    the key is missing or null. *)
Definition ask_stream (engine : string -> Exc StreamResult) (body_query : option string)
  : Exc (list string) :=
  match body_query with
  | None => Raise (HTTPException 400 query_empty_msg)
  | Some q =>
      if negb (PyStr.truthy q) || negb (PyStr.truthy (PyStr.strip q))
      then Raise (HTTPException 400 query_empty_msg)
      else Ok (ask_ai_streaming engine q)
  end.

(* ------------------------------------------------------------------ *)
(** ** utils.py: [learn_from_interaction] *)




Section UtilsLearn.
Variable embed : string -> Embedding.
(** [utils.get_chunked_documents]: [SentenceSplitter(chunk_size=512,
    chunk_overlap=20).get_nodes_from_documents]. *)
Variable get_chunked_documents : list Document -> list TextNode.
(** [index.storage_context.persist()]. *)
Variable persist : Index -> Exc unit.



End UtilsLearn.

(** A string made only of whitespace ([str.isspace] on every character;
    true for the empty string). *)
Definition blank (s : string) : bool := forallb PyStr.isspace (list_ascii_of_string s).

(* ================================================================== *)
(** * Lemmas *)

Lemma process_response_id (r : string) : process_response r = r.
Proof. unfold process_response. destruct (PyStr.contains _ _); [|destruct (PyStr.contains _ _)]; reflexivity. Qed.

Lemma exc_bind_ok {A B} (a : A) (k : A -> Exc B) : exc_bind (Ok a) k = k a.
Proof. reflexivity. Qed.

(* ================================================================== *)
(** * Claims *)

(** ** C10 *)

(** C10: [process_response] returns its argument unchanged for every
    string, so on the miss path the response returned to the user is the
    very answer passed to [learn_from_interaction] and stored in Redis. *)
Theorem process_response_identity (sec : PyHash.HashSecret)
    (gen : string -> Exc string) (learn : string -> string -> Exc unit) :
  (forall r, process_response r = r) /\
  (forall w req w' resp ev,
     ask sec gen learn w req = (w', Response resp false, ev) ->
     In (EvLearn req.(query) resp) ev /\
     forall r, w.(w_redis) = Some r ->
       w'.(w_redis) = Some (redis_set (cache_key sec req)
                              {| ce_response := resp; ce_ttl := cache_ttl |} r)).
Proof.
  split; [exact process_response_id|].
  intros w req w' resp ev Hask.
  unfold ask in Hask.
  destruct (match w_redis w with Some r => redis_get (cache_key sec req) r | None => None end)
    as [ce|] eqn:Hhit; [inversion Hask|].
  destruct (lru_call gen (w_lru w) (query req)) as [[res lru'] called].
  destruct res as [result|e]; [|inversion Hask].
  destruct (learn (query req) result); [|inversion Hask].
  rewrite process_response_id in Hask.
  destruct (w_redis w) as [r|] eqn:Hr; inversion Hask; subst; split.
  - apply in_or_app; right; left; reflexivity.
  - intros r' Hr'; inversion Hr'; subst; reflexivity.
  - apply in_or_app; right; left; reflexivity.
  - intros r' Hr'; discriminate.
Qed.

Definition demo_secret_c10 : PyHash.HashSecret := {| PyHash.k0 := 7; PyHash.k1 := 9 |}.
Definition demo_req_c10 : QueryRequest := {| query := "NE555 datasheet"; context := None |}.
Definition demo_gen_c10 (q : string) : Exc string := Ok ("see the " ++ q).

Lemma process_response_identity_witness :
  exists (w' : World) (ev : list Event),
    ask demo_secret_c10 demo_gen_c10 (fun _ _ => Ok tt)
        {| w_redis := Some []; w_lru := [] |} demo_req_c10 =
      (w', Response ("see the " ++ demo_req_c10.(query)) false, ev) /\
    In (EvLearn demo_req_c10.(query) ("see the " ++ demo_req_c10.(query))) ev.
Proof.
  eexists; eexists; split; [reflexivity|].
  refine (proj1 (proj2 (process_response_identity demo_secret_c10 demo_gen_c10 (fun _ _ => Ok tt))
                   {| w_redis := Some []; w_lru := [] |} demo_req_c10 _ _ _ _)).
  reflexivity.
Defined.

(** ** C8 *)

(** C8 (as stated, refuted): the validated query is not the trimmed input:
    [" hi"] passes validation unchanged, while trimming gives ["hi"]. *)
Lemma query_not_trimmed_counterexample :
  query_not_empty " hi" = Ok " hi" /\
  query_not_empty " hi" <> Ok (spec_normalize_query " hi").
Proof. split; [reflexivity| vm_compute; discriminate]. Qed.

(** C8 (amended): [query_not_empty] rejects a query that is empty or
    whitespace-only with [ValueError("Query cannot be empty")]; any other
    query is kept untrimmed and cut to its first 1000 characters. *)
Theorem query_not_empty_spec (v : string) :
  query_not_empty v =
    if String.eqb (PyStr.strip v) ""
    then Raise (ValueError query_empty_msg)
    else Ok (substring 0 1000 v).
Proof.
  unfold query_not_empty, PyStr.slice_to.
  destruct v as [|c r]; [reflexivity|].
  simpl PyStr.truthy at 1.
  destruct (PyStr.strip (String c r)); reflexivity.
Qed.

(** ** C5 *)

(** C5: whatever the persist step does, [learn_from_interaction(q, a)]
    leaves the loaded index's nodes and embeddings as they were and appends
    exactly one node, with text ["Q: " ++ q ++ "\n" ++ "A: " ++ a] and the
    provider's embedding of that text. *)
Theorem learn_appends_one_node (embed : string -> Embedding) (idx : Index)
    (new_id : string) (persist : Index -> Exc unit) (q a : string) :
  lo_index (learn_from_interaction embed (Ok idx) new_id persist q a) =
    Some {| idx_nodes :=
              app idx.(idx_nodes)
                [({| node_id := new_id; node_text := "Q: " ++ q ++ nl ++ "A: " ++ a |},
                  embed ("Q: " ++ q ++ nl ++ "A: " ++ a))] |}.
Proof.
  unfold learn_from_interaction.
  destruct (persist _) as [[]|e]; reflexivity.
Qed.

(** ** C3 *)

(** No datasheet file to read: the directory is missing, or holds only
    hidden files and sub-directories (such as [learned/]). *)
Definition no_datasheet_files (listing : option (list DirEntry)) : bool :=
  match listing with
  | None => true
  | Some es => forallb (fun e => match e with
                                 | FileEntry n _ => PyStr.startswith "." n
                                 | SubDir _ => true
                                 end) es
  end.

(** C3 (as stated, refuted): with an empty datasheet directory [build_index]
    raises [FileNotFoundError] rather than seeding a placeholder. *)
Lemma build_index_empty_counterexample :
  build_index (fun _ => []) (fun docs => map (fun d => {| node_id := "n"; node_text := d.(doc_text) |}) docs)
    (Some []) =
  Raise (FileNotFoundError "No datasheets found in 'data/datasheets'.").
Proof. reflexivity. Qed.

(** C3 (amended): when there is no datasheet file, [build_index] fails: it
    raises [FileNotFoundError] if [data/datasheets] is missing or empty and
    the directory reader's [ValueError] if it holds only hidden files or
    sub-directories; no placeholder document is seeded. *)
Theorem build_index_no_documents_fails (embed : string -> Embedding)
    (chunk : list Document -> list TextNode) (listing : option (list DirEntry)) :
  no_datasheet_files listing = true ->
  build_index embed chunk listing =
    match listing with
    | None | Some [] => Raise (FileNotFoundError "No datasheets found in 'data/datasheets'.")
    | Some _ => Raise (ValueError "No files found in data/datasheets.")
    end.
Proof.
  intro H.
  destruct listing as [es|]; [|reflexivity].
  destruct es as [|e es]; [reflexivity|].
  unfold build_index, simple_directory_reader.
  assert (Hnil : forall l, forallb (fun e => match e with
                                       | FileEntry n _ => PyStr.startswith "." n
                                       | SubDir _ => true
                                       end) l = true ->
                 flat_map doc_of_entry l = []).
  { induction l as [|x l IH]; intro Hl; [reflexivity|].
    cbn [forallb] in Hl. apply andb_prop in Hl. destruct Hl as [Hx Hl].
    cbn [flat_map]. rewrite (IH Hl).
    destruct x as [n c|n]; unfold doc_of_entry; [rewrite Hx|]; reflexivity. }
  simpl in H. rewrite (Hnil (e :: es) H). reflexivity.
Qed.

Lemma build_index_no_documents_fails_witness :
  no_datasheet_files (Some [SubDir "learned"; FileEntry ".gitkeep" ""]) = true /\
  build_index (fun _ => []) (fun _ => []) (Some [SubDir "learned"; FileEntry ".gitkeep" ""]) =
    Raise (ValueError "No files found in data/datasheets.").
Proof.
  split; [reflexivity|].
  exact (build_index_no_documents_fails (fun _ => []) (fun _ => [])
           (Some [SubDir "learned"; FileEntry ".gitkeep" ""]) eq_refl).
Defined.

(** ** C6 *)

(** C6: with Redis connected, a request whose key is present is answered
    from Redis tagged [cached: true], with no generation, no call to the
    learner and no state change; when the key is absent, every answer
    returned is tagged [cached: false], the learner was called with the
    query and that answer, and the key is set with the fixed TTL of 3600 s. *)
Theorem ask_cache_hit_and_miss (sec : PyHash.HashSecret)
    (gen : string -> Exc string) (learn : string -> string -> Exc unit)
    (w : World) (req : QueryRequest) (r : RedisStore) :
  w.(w_redis) = Some r ->
  (forall ce, redis_get (cache_key sec req) r = Some ce ->
     ask sec gen learn w req = (w, Response ce.(ce_response) true, [])) /\
  (redis_get (cache_key sec req) r = None ->
     forall w' resp c ev, ask sec gen learn w req = (w', Response resp c, ev) ->
     c = false /\ In (EvLearn req.(query) resp) ev /\
     w'.(w_redis) = Some (redis_set (cache_key sec req)
                            {| ce_response := resp; ce_ttl := cache_ttl |} r)).
Proof.
  intro Hr. unfold ask. rewrite Hr. split.
  - intros ce Hce. rewrite Hce, process_response_id. reflexivity.
  - intros Hmiss w' resp c ev. rewrite Hmiss.
    destruct (lru_call gen (w_lru w) (query req)) as [[res lru'] called].
    destruct res as [result|e]; [|intro H; inversion H].
    destruct (learn (query req) result); [|intro H; inversion H].
    rewrite process_response_id. intro H; inversion H; subst.
    split; [reflexivity|split; [|reflexivity]].
    apply in_or_app; right; left; reflexivity.
Qed.

Definition demo_secret : PyHash.HashSecret := {| PyHash.k0 := 1; PyHash.k1 := 2 |}.
Definition demo_req : QueryRequest := {| query := "what is a 555 timer"; context := None |}.
Definition demo_gen (q : string) : Exc string := Ok ("answer: " ++ q).

Lemma ask_cache_hit_and_miss_witness :
  ask demo_secret demo_gen (fun _ _ => Ok tt)
      {| w_redis := Some [(cache_key demo_secret demo_req,
                           {| ce_response := "cached"; ce_ttl := cache_ttl |})];
         w_lru := [] |} demo_req =
    ({| w_redis := Some [(cache_key demo_secret demo_req,
                          {| ce_response := "cached"; ce_ttl := cache_ttl |})];
        w_lru := [] |}, Response "cached" true, []) /\
  (exists w' ev,
     ask demo_secret demo_gen (fun _ _ => Ok tt) {| w_redis := Some []; w_lru := [] |} demo_req =
       (w', Response ("answer: " ++ demo_req.(query)) false, ev) /\
     In (EvLearn demo_req.(query) ("answer: " ++ demo_req.(query))) ev).
Proof.
  split.
  - apply (proj1 (ask_cache_hit_and_miss demo_secret demo_gen (fun _ _ => Ok tt)
                    {| w_redis := Some [(cache_key demo_secret demo_req,
                                         {| ce_response := "cached"; ce_ttl := cache_ttl |})];
                       w_lru := [] |} demo_req _ eq_refl)
                    {| ce_response := "cached"; ce_ttl := cache_ttl |}).
    vm_compute. reflexivity.
  - eexists; eexists; split; [reflexivity|].
    refine (proj1 (proj2 (proj2 (ask_cache_hit_and_miss demo_secret demo_gen (fun _ _ => Ok tt)
                    {| w_redis := Some []; w_lru := [] |} demo_req [] eq_refl) eq_refl _ _ _ _ _))).
    reflexivity.
Defined.

(** ** C4 *)

Definition demo_embed (s : string) : Embedding := [Z.of_nat (String.length s)].
Definition demo_index : Index :=
  {| idx_nodes := [({| node_id := "n0"; node_text := "555 timer datasheet" |},
                    demo_embed "555 timer datasheet")] |}.
Definition failing_persist (_ : Index) : Exc unit := Raise (PersistError "disk full").

(** The learner of [main.py]'s [ask], at a given loaded index, fresh id and
    persist behaviour. *)
Definition learner (embed : string -> Embedding) (load : Exc Index) (new_id : string)
    (persist : Index -> Exc unit) : string -> string -> Exc unit :=
  fun q a => lo_result (learn_from_interaction embed load new_id persist q a).

(** C4 (as stated, refuted): when the persist step fails, the failure
    reaches the caller of [learn_from_interaction], and [ask] answers HTTP
    500 instead of the generated answer. *)
Lemma persist_failure_fails_request_counterexample :
  lo_result (learn_from_interaction demo_embed (Ok demo_index) "n1" failing_persist
               "q" "a") = Raise (PersistError "disk full") /\
  snd (fst (ask demo_secret demo_gen (learner demo_embed (Ok demo_index) "n1" failing_persist)
              {| w_redis := None; w_lru := [] |} demo_req)) = error_500.
Proof. split; reflexivity. Qed.

(** C4 (amended): if the persist step raises [e], [learn_from_interaction]
    keeps the node inserted into the loaded index, logs the failure twice
    and re-raises [e]; [ask] then answers HTTP 500 "Error processing query"
    rather than the answer, and does not write the answer to Redis. *)
Theorem persist_failure_propagates (embed : string -> Embedding) (idx : Index)
    (new_id : string) (persist : Index -> Exc unit) (e : PyExc)
    (sec : PyHash.HashSecret) (gen : string -> Exc string) :
  (forall i, persist i = Raise e) ->
  (forall q a,
     learn_from_interaction embed (Ok idx) new_id persist q a =
       {| lo_index := Some (insert_nodes embed idx
                              [{| node_id := new_id; node_text := combined_text q a |}]);
          lo_log := [LogError "Failed to persist index";
                     LogError "Failed to learn from interaction"];
          lo_result := Raise e |}) /\
  (forall w req result,
     match w.(w_redis) with Some r => redis_get (cache_key sec req) r | None => None end = None ->
     fst (fst (lru_call gen w.(w_lru) req.(query))) = Ok result ->
     snd (fst (ask sec gen (learner embed (Ok idx) new_id persist) w req)) = error_500 /\
     (fst (fst (ask sec gen (learner embed (Ok idx) new_id persist) w req))).(w_redis)
       = w.(w_redis)).
Proof.
  intro Hp. split.
  - intros q a. unfold learn_from_interaction. rewrite Hp. reflexivity.
  - intros w req result Hmiss Hgen. unfold ask. rewrite Hmiss.
    destruct (lru_call gen (w_lru w) (query req)) as [[res lru'] called].
    simpl in Hgen. subst res.
    unfold learner, learn_from_interaction. rewrite Hp. simpl.
    split; reflexivity.
Qed.

Lemma persist_failure_propagates_witness :
  (forall i, failing_persist i = Raise (PersistError "disk full")) /\
  snd (fst (ask demo_secret demo_gen (learner demo_embed (Ok demo_index) "n1" failing_persist)
              {| w_redis := Some []; w_lru := [] |} demo_req)) = error_500.
Proof.
  split; [reflexivity|].
  exact (proj1 (proj2 (persist_failure_propagates demo_embed demo_index "n1" failing_persist
                         (PersistError "disk full") demo_secret demo_gen (fun _ => eq_refl))
                  {| w_redis := Some []; w_lru := [] |} demo_req ("answer: " ++ demo_req.(query))
                  eq_refl eq_refl)).
Defined.

(** ** C9 *)

Module LruFacts.

(** Position (most recent first) and value of the first entry for [q]. *)
Fixpoint lru_pos (q : string) (c : LruCache) : option (nat * string) :=
  match c with
  | [] => None
  | (k, v) :: r =>
      if String.eqb k q then Some (0, v)
      else match lru_pos q r with
           | Some (i, x) => Some (S i, x)
           | None => None
           end
  end.


Lemma lru_pos_lt q c i v : lru_pos q c = Some (i, v) -> i < length c.
Proof.
  revert i. induction c as [|[k x] r IH]; intros i H; [discriminate|].
  simpl in H. destruct (String.eqb k q).
  - inversion H; simpl; lia.
  - destruct (lru_pos q r) as [[j y]|] eqn:E; [|discriminate].
    inversion H; subst. specialize (IH j eq_refl). simpl; lia.
Qed.


Lemma remove_key_length_lt q c x :
  lru_get q c = Some x -> length (remove_key q c) < length c.
Proof.
  induction c as [|[k v] r IH]; intro H; [discriminate|].
  unfold remove_key; simpl. fold (remove_key q r).
  simpl in H. destruct (String.eqb k q).
  - simpl. pose proof (List.filter_length_le (fun kv => negb (String.eqb (fst kv) q)) r).
    unfold remove_key. lia.
  - simpl. specialize (IH H). lia.
Qed.


Lemma removelast_length_le (c : LruCache) : length (removelast c) <= length c.
Proof.
  induction c as [|x r IH]; [simpl; lia|].
  destruct r as [|y r']; [simpl; lia|].
  change (removelast (x :: y :: r')) with (x :: removelast (y :: r')).
  simpl in *. lia.
Qed.

Lemma removelast_length_pred (c : LruCache) : length (removelast c) = pred (length c).
Proof.
  induction c as [|x r IH]; [reflexivity|].
  destruct r as [|y r']; [reflexivity|].
  change (removelast (x :: y :: r')) with (x :: removelast (y :: r')).
  simpl in *. rewrite IH. reflexivity.
Qed.

(** Every call keeps the cache within [maxsize] entries. *)
Lemma lru_call_length f c q :
  length c <= lru_maxsize -> length (snd (fst (lru_call f c q))) <= lru_maxsize.
Proof.
  intro Hc. unfold lru_call.
  destruct (lru_get q c) as [x|] eqn:Hg.
  - simpl. pose proof (remove_key_length_lt q c x Hg). lia.
  - destruct (f q) as [v|e]; simpl; [|exact Hc].
    destruct (Nat.ltb (length c) lru_maxsize) eqn:Hl.
    + apply Nat.ltb_lt in Hl. simpl. lia.
    + rewrite removelast_length_pred. simpl. unfold lru_maxsize in *. lia.
Qed.



End LruFacts.


(** The queries ["q1"], ..., ["q<n>"]. *)
Definition other_queries (n : nat) : list (string * (string -> Exc string)) :=
  map (fun k => ("q" ++ PyHash.z_to_str (Z.of_nat k), demo_gen)) (seq 1 n).




(** ** C7 *)

(** C7: the cache key of [ask] is computed with [hash()], which CPython
    keys with a per-process secret: the same request ["hello"] (no context)
    gets different keys in two processes whose hash secrets differ. *)
Theorem cache_key_varies_with_process_secret :
  cache_key {| PyHash.k0 := 0; PyHash.k1 := 0 |} {| query := "hello"; context := None |}
    = "query:-2096571579003691106" /\
  cache_key {| PyHash.k0 := 1; PyHash.k1 := 0 |} {| query := "hello"; context := None |}
    = "query:201493985414478948" /\
  cache_key {| PyHash.k0 := 0; PyHash.k1 := 0 |} {| query := "hello"; context := None |}
    <> cache_key {| PyHash.k0 := 1; PyHash.k1 := 0 |} {| query := "hello"; context := None |}.
Proof.
  split; [vm_compute; reflexivity|]. split; [vm_compute; reflexivity|].
  intro H. vm_compute in H. discriminate H.
Qed.

(** ** C1 *)

(** A small serialisation of an index, enough to tell two snapshots apart:
    each file records the node count (and the docstore the texts). *)
Definition count_str (idx : Index) : string :=
  PyHash.z_to_str (Z.of_nat (length idx.(idx_nodes))).

Definition demo_storage_files (idx : Index) : list (string * string) :=
  [("docstore.json",
    "{docstore:" ++ fold_right (fun ne acc => (fst ne).(node_text) ++ ";" ++ acc) "" idx.(idx_nodes) ++ "}");
   ("index_store.json", "{index_store:" ++ count_str idx ++ "}");
   ("default__vector_store.json", "faiss:" ++ count_str idx)].

Definition demo_faiss_bytes (idx : Index) : string := "faiss:" ++ count_str idx.

Definition demo_index_new : Index :=
  {| idx_nodes := idx_nodes demo_index ++
                  [({| node_id := "n1"; node_text := "LM317 regulator datasheet" |},
                    demo_embed "LM317 regulator datasheet")] |}.

(** The disk holding the complete snapshot of [demo_index]. *)
Definition disk_with_old_snapshot : Fs.FS :=
  (FAISS_INDEX_PATH, demo_faiss_bytes demo_index)
  :: map (fun nc => (Fs.join STORAGE_DIR (fst nc), snd nc)) (demo_storage_files demo_index).

Definition demo_build_ops : list Fs.FsOp :=
  build_persist_ops demo_storage_files demo_faiss_bytes demo_index_new
    (map fst (demo_storage_files demo_index_new)).

(** C1: [build_index] publishes the new snapshot file by file: interrupted
    after the per-file renames and before [faiss.write_index] (operation 8
    of 11), the disk holds the new docstore and index store next to the old
    faiss file, a snapshot that is neither the old one nor the new one. *)
Theorem build_index_publication_not_atomic :
  let fs := Fs.crash_after 8 demo_build_ops disk_with_old_snapshot in
  Fs.run_ops disk_with_old_snapshot [] = disk_with_old_snapshot /\
  snapshot_view (snapshot_paths demo_storage_files demo_index_new) disk_with_old_snapshot
    = snapshot_of demo_storage_files demo_faiss_bytes demo_index /\
  snapshot_view (snapshot_paths demo_storage_files demo_index_new)
                (Fs.run_ops disk_with_old_snapshot demo_build_ops)
    = snapshot_of demo_storage_files demo_faiss_bytes demo_index_new /\
  snapshot_view (snapshot_paths demo_storage_files demo_index_new) fs
    = Some (demo_faiss_bytes demo_index)
      :: map (fun nc => Some (snd nc)) (demo_storage_files demo_index_new) /\
  snapshot_view (snapshot_paths demo_storage_files demo_index_new) fs
    <> snapshot_of demo_storage_files demo_faiss_bytes demo_index /\
  snapshot_view (snapshot_paths demo_storage_files demo_index_new) fs
    <> snapshot_of demo_storage_files demo_faiss_bytes demo_index_new.
Proof.
  vm_compute.
  split; [reflexivity|]. split; [reflexivity|]. split; [reflexivity|].
  split; [reflexivity|]. split; intro H; discriminate H.
Qed.

(** ** C2 *)

Section LoadFacts.
Variables (J F St : Type) (json_loads : string -> option J)
          (faiss_read_index : string -> option F) (storage_from_defaults : Fs.FS -> option St).

Definition DOCSTORE_PATH := Fs.join STORAGE_DIR "docstore.json".
Definition INDEX_STORE_PATH := Fs.join STORAGE_DIR "index_store.json".

Lemma validate_index_files_cases (fs : Fs.FS) :
  validate_index_files J json_loads fs =
    match Fs.get FAISS_INDEX_PATH fs, Fs.get DOCSTORE_PATH fs, Fs.get INDEX_STORE_PATH fs with
    | Some _, Some d, Some i =>
        match json_loads d, json_loads i with
        | Some _, Some _ => true
        | _, _ => false
        end
    | _, _, _ => false
    end.
Proof.
  assert (E1 : ends_with_json FAISS_INDEX_PATH = false) by reflexivity.
  assert (E2 : ends_with_json DOCSTORE_PATH = true) by reflexivity.
  assert (E3 : ends_with_json INDEX_STORE_PATH = true) by reflexivity.
  unfold validate_index_files, required_files. fold DOCSTORE_PATH INDEX_STORE_PATH.
  cbn [validate_files]. rewrite E1, E2, E3.
  destruct (Fs.get FAISS_INDEX_PATH fs); [|reflexivity].
  destruct (Fs.get DOCSTORE_PATH fs) as [d|]; [|reflexivity].
  destruct (json_loads d); destruct (Fs.get INDEX_STORE_PATH fs) as [i|]; reflexivity.
Qed.

End LoadFacts.

(** [load_or_build_index] on every disk: [from_vector_store] rejects the
    [FaissVectorStore], so a snapshot that passes validation makes the
    [try] body raise, and the [except] clause builds; a snapshot that fails
    validation is built in the body, and built once more if that raises. *)
Lemma load_or_build_index_unfold (J F St : Type) (json_loads : string -> option J)
    (faiss_read_index : string -> option F) (storage_from_defaults : Fs.FS -> option St)
    (build : nat -> Exc Index) (fs : Fs.FS) :
  load_or_build_index J json_loads F faiss_read_index St storage_from_defaults build fs =
  if validate_index_files J json_loads fs
  then let* idx := build 0 in Ok (Rebuilt F St idx)
  else match build 0 with
       | Ok idx => Ok (Rebuilt F St idx)
       | Raise _ => let* idx := build 1 in Ok (Rebuilt F St idx)
       end.
Proof.
  unfold load_or_build_index.
  destruct (validate_index_files J json_loads fs).
  - destruct (Fs.get FAISS_INDEX_PATH fs) as [blob|]; [|reflexivity].
    destruct (faiss_read_index blob); [|reflexivity].
    destruct (storage_from_defaults fs); reflexivity.
  - destruct (build 0); reflexivity.
Qed.

(** C2: [load_or_build_index] never returns an index loaded from the
    persisted snapshot, so it does so only if validation succeeds; on every
    disk it falls through to [build_index()] and raises only what that
    raises: once when the snapshot passes [validate_index_files] (whatever
    the node counts), and, when a required file is missing or a JSON file
    does not parse (validation fails), once more if that first build
    raises. *)
Theorem load_or_build_index_validation (J F St : Type) (json_loads : string -> option J)
    (faiss_read_index : string -> option F) (storage_from_defaults : Fs.FS -> option St)
    (build : nat -> Exc Index) (fs : Fs.FS) :
  let lob := load_or_build_index J json_loads F faiss_read_index St storage_from_defaults build fs in
  (forall fi st, lob <> Ok (FromSnapshot F St fi st)) /\
  lob = (if validate_index_files J json_loads fs
         then let* idx := build 0 in Ok (Rebuilt F St idx)
         else match build 0 with
              | Ok idx => Ok (Rebuilt F St idx)
              | Raise _ => let* idx := build 1 in Ok (Rebuilt F St idx)
              end) /\
  ((exists p, In p required_files /\ Fs.get p fs = None) \/
   (exists p c, In p [DOCSTORE_PATH; INDEX_STORE_PATH] /\ Fs.get p fs = Some c /\
                json_loads c = None) ->
   validate_index_files J json_loads fs = false).
Proof.
  cbv zeta. rewrite load_or_build_index_unfold.
  split; [|split; [reflexivity|]].
  - intros fi st.
    destruct (validate_index_files J json_loads fs), (build 0), (build 1); discriminate.
  - intros [[p [Hp Hg]]|[p [c [Hp [Hg Hj]]]]]; rewrite validate_index_files_cases.
    + unfold required_files in Hp. fold DOCSTORE_PATH INDEX_STORE_PATH in Hp.
      destruct Hp as [<-|[<-|[<-|[]]]];
        repeat (match goal with
                | |- context [match ?x with _ => _ end] => let E := fresh "E" in destruct x eqn:E
                end); congruence.
    + destruct Hp as [<-|[<-|[]]];
        repeat (match goal with
                | |- context [match ?x with _ => _ end] => let E := fresh "E" in destruct x eqn:E
                end); congruence.
Qed.

(** A concrete snapshot format: the faiss file lists its vectors, the
    docstore its documents; [None] stands for a parse error. *)
Definition toy_json_loads (s : string) : option nat :=
  if String.eqb s "{docs:[n1]}" then Some 1
  else if String.eqb s "{}" then Some 0 else None.
Definition toy_faiss_read (s : string) : option nat :=
  if String.eqb s "faiss[v1,v2]" then Some 2 else None.
Definition toy_storage (_ : Fs.FS) : option unit := Some tt.
Definition toy_build (_ : nat) : Exc Index :=
  Raise (FileNotFoundError "No datasheets found in 'data/datasheets'.").

(** Two vectors in the faiss file, one document in the docstore. *)
Definition disk_count_mismatch : Fs.FS :=
  [(FAISS_INDEX_PATH, "faiss[v1,v2]"); (DOCSTORE_PATH, "{docs:[n1]}");
   (INDEX_STORE_PATH, "{}")].

(* ================================================================== *)
(** * Further properties of the code *)

Lemma fs_get_del p p' fs :
  Fs.get p (Fs.del p' fs) = if String.eqb p' p then None else Fs.get p fs.
Proof.
  induction fs as [|[q c] r IH]; simpl.
  - destruct (String.eqb p' p); reflexivity.
  - destruct (String.eqb q p') eqn:Eq; simpl.
    + apply String.eqb_eq in Eq; subst q. rewrite IH.
      destruct (String.eqb p' p); reflexivity.
    + rewrite IH. destruct (String.eqb q p) eqn:Eqp; [|reflexivity].
      apply String.eqb_eq in Eqp; subst q.
      destruct (String.eqb p' p) eqn:E'; [|reflexivity].
      apply String.eqb_eq in E'; subst. rewrite String.eqb_refl in Eq. discriminate.
Qed.

Lemma fs_get_put p p' c fs :
  Fs.get p (Fs.put p' c fs) = if String.eqb p' p then Some c else Fs.get p fs.
Proof.
  unfold Fs.put. simpl. rewrite fs_get_del.
  destruct (String.eqb p' p); reflexivity.
Qed.

Lemma string_length_app (s t : string) : String.length (s ++ t) = String.length s + String.length t.
Proof. induction s as [|a s IH]; simpl; [reflexivity|rewrite IH; reflexivity]. Qed.

(** X1: [initialize_environment] leaves a parsable [vector_store.json]
    untouched (it can then fail only while creating the required
    directories); whenever it succeeds, [validate_storage_files] holds on
    the result and running it again changes nothing. *)
Theorem initialize_environment_storage (json_load : string -> JsonLoad)
    (makedirs : string -> option PyExc) (write_error : option PyExc) (base : string)
    (fs : Fs.FS) :
  json_load "{}" = JParsed ->
  (validate_storage_files json_load base fs = true ->
     initialize_environment json_load makedirs write_error base fs =
       match make_required_dirs makedirs base REQUIRED_DIRS with
       | Some e => Raise e
       | None => Ok fs
       end) /\
  (forall fs', initialize_environment json_load makedirs write_error base fs = Ok fs' ->
     validate_storage_files json_load base fs' = true /\
     initialize_environment json_load makedirs write_error base fs' = Ok fs').
Proof.
  intro Hj.
  unfold initialize_environment, validate_storage_files.
  destruct (make_required_dirs makedirs base REQUIRED_DIRS) as [e|] eqn:Hm;
    [split; [intros _; reflexivity|intros fs' H; discriminate H]|].
  assert (Hw : forall fs',
    write_empty_store write_error base fs = Ok fs' ->
    match Fs.get (vector_store_path base) fs' with
    | Some c => match json_load c with JParsed => true | _ => false end
    | None => false end = true /\
    match Fs.get (vector_store_path base) fs' with
    | Some c => match json_load c with
                | JParsed => Ok fs'
                | JDecodeError => write_empty_store write_error base fs'
                | JUnicodeError => Raise (ValueError "'utf-8' codec can't decode")
                | JOtherError e => Raise e
                end
    | None => write_empty_store write_error base fs' end = Ok fs').
  { intros fs' H. unfold write_empty_store in H.
    destruct write_error; [discriminate H|]. injection H as <-.
    rewrite fs_get_put, String.eqb_refl, Hj. split; reflexivity. }
  destruct (Fs.get (vector_store_path base) fs) as [c|] eqn:Hg.
  - destruct (json_load c) eqn:Hc.
    + split; [reflexivity|]. intros fs' H. injection H as <-.
      rewrite Hg, Hc. split; reflexivity.
    + split; [discriminate|]. exact Hw.
    + split; [discriminate|]. intros fs' H; discriminate H.
    + split; [discriminate|]. intros fs' H; discriminate H.
  - split; [discriminate|]. exact Hw.
Qed.

Definition demo_json_load (s : string) : JsonLoad :=
  if String.eqb s "{}" then JParsed
  else if PyStr.startswith "[[[[" s then JOtherError (RecursionError "maximum recursion depth exceeded")
  else JDecodeError.

Lemma initialize_environment_storage_witness :
  demo_json_load "{}" = JParsed /\
  validate_storage_files demo_json_load "backend"
    (Fs.put (vector_store_path "backend") "{}" [(vector_store_path "backend", "{trunc")]) = true.
Proof.
  split; [reflexivity|].
  exact (proj1 (proj2 (initialize_environment_storage demo_json_load (fun _ => None) None "backend"
                         [(vector_store_path "backend", "{trunc")] eq_refl)
                  _ eq_refl)).
Defined.

(** X2: [validate_index_files] never reads the faiss file: once it exists,
    overwriting it with anything (a truncated or corrupt index included)
    does not change the verdict. *)
Theorem validate_index_files_ignores_faiss_contents (J : Type) (json_loads : string -> option J)
    (fs : Fs.FS) (c0 c : string) :
  Fs.get FAISS_INDEX_PATH fs = Some c0 ->
  validate_index_files J json_loads (Fs.put FAISS_INDEX_PATH c fs) =
  validate_index_files J json_loads fs.
Proof.
  intro Hf.
  rewrite !validate_index_files_cases, !fs_get_put, String.eqb_refl, Hf.
  assert (E1 : String.eqb FAISS_INDEX_PATH DOCSTORE_PATH = false) by reflexivity.
  assert (E2 : String.eqb FAISS_INDEX_PATH INDEX_STORE_PATH = false) by reflexivity.
  rewrite E1, E2. reflexivity.
Qed.

Lemma validate_index_files_ignores_faiss_contents_witness :
  Fs.get FAISS_INDEX_PATH disk_count_mismatch = Some "faiss[v1,v2]" /\
  validate_index_files nat toy_json_loads (Fs.put FAISS_INDEX_PATH "" disk_count_mismatch) = true.
Proof.
  split; [reflexivity|].
  rewrite (validate_index_files_ignores_faiss_contents nat toy_json_loads disk_count_mismatch
             "faiss[v1,v2]" "" eq_refl).
  vm_compute. reflexivity.
Defined.

(** X3: [learn_from_interaction] persists to [<backend>/data/simple/vector_store.json],
    a file [load_or_build_index] does not read: writing it never changes
    what [load_or_build_index] returns. *)
Theorem load_or_build_index_ignores_learned_store (J F St : Type)
    (json_loads : string -> option J) (faiss_read_index : string -> option F)
    (storage_from_defaults : Fs.FS -> option St) (build : nat -> Exc Index)
    (fs : Fs.FS) (base c : string) :
  load_or_build_index J json_loads F faiss_read_index St storage_from_defaults build
    (Fs.put (vector_store_path base) c fs) =
  load_or_build_index J json_loads F faiss_read_index St storage_from_defaults build fs.
Proof.
  assert (Hne : forall p, In p required_files -> String.eqb (vector_store_path base) p = false).
  { intros p Hp. apply String.eqb_neq. intro Heq.
    assert (Hl : String.length (vector_store_path base) = String.length p) by (rewrite Heq; reflexivity).
    unfold vector_store_path, Fs.join in Hl. rewrite !string_length_app in Hl.
    destruct Hp as [<-|[<-|[<-|[]]]]; simpl in Hl; lia. }
  rewrite !load_or_build_index_unfold, !validate_index_files_cases, !fs_get_put.
  rewrite (Hne FAISS_INDEX_PATH ltac:(left; reflexivity)),
          (Hne DOCSTORE_PATH ltac:(right; left; reflexivity)),
          (Hne INDEX_STORE_PATH ltac:(right; right; left; reflexivity)).
  reflexivity.
Qed.

Lemma load_or_build_index_ignores_learned_store_witness :
  load_or_build_index nat toy_json_loads nat toy_faiss_read unit toy_storage toy_build
    (Fs.put (vector_store_path "/srv/backend") "[learned]" disk_count_mismatch) =
  Raise (FileNotFoundError "No datasheets found in 'data/datasheets'.").
Proof.
  rewrite (load_or_build_index_ignores_learned_store nat nat unit toy_json_loads toy_faiss_read
             toy_storage toy_build disk_count_mismatch "/srv/backend" "[learned]").
  vm_compute. reflexivity.
Defined.

Lemma string_app_nil (s : string) : s ++ "" = s.
Proof. induction s as [|a s IH]; simpl; [reflexivity|rewrite IH; reflexivity]. Qed.

(** X4: the cache key hashes the plain concatenation [query + context], so
    the request (q, context c) gets the key of (q ++ c, no context): with
    Redis connected, it is answered from that request's cached entry. *)
Theorem cache_key_concat_collision (sec : PyHash.HashSecret) (q c : string) :
  cache_key sec {| query := q; context := Some c |} =
  cache_key sec {| query := q ++ c; context := None |} /\
  (forall gen learn w r ce,
     w.(w_redis) = Some r ->
     redis_get (cache_key sec {| query := q ++ c; context := None |}) r = Some ce ->
     ask sec gen learn w {| query := q; context := Some c |} =
       (w, Response ce.(ce_response) true, [])).
Proof.
  assert (Hk : cache_key sec {| query := q; context := Some c |} =
               cache_key sec {| query := q ++ c; context := None |}).
  { unfold cache_key. cbn [query context]. rewrite string_app_nil. reflexivity. }
  split; [exact Hk|].
  intros gen learn w r ce Hr Hce.
  unfold ask. rewrite Hr, Hk, Hce, process_response_id. reflexivity.
Qed.

Lemma cache_key_concat_collision_witness :
  let key := cache_key demo_secret {| query := "555 " ++ "timer"; context := None |} in
  let entry := {| ce_response := "an earlier answer"; ce_ttl := cache_ttl |} in
  ask demo_secret demo_gen (fun _ _ => Ok tt)
      {| w_redis := Some [(key, entry)]; w_lru := [] |}
      {| query := "555 "; context := Some "timer" |} =
    ({| w_redis := Some [(key, entry)]; w_lru := [] |}, Response "an earlier answer" true, []).
Proof.
  intros key entry.
  refine (proj2 (cache_key_concat_collision demo_secret "555 " "timer") demo_gen (fun _ _ => Ok tt)
            {| w_redis := Some [(key, entry)]; w_lru := [] |} [(key, entry)] entry eq_refl _).
  unfold key. cbn [redis_get]. rewrite String.eqb_refl. reflexivity.
Defined.

(** X5: on a Redis miss the optional context plays no part in the answer:
    [ask_ai] is called with the query alone, so two requests that differ
    only in their context get the same response and leave the same
    memoisation state. *)
Theorem ask_miss_ignores_context (sec : PyHash.HashSecret) (gen : string -> Exc string)
    (learn : string -> string -> Exc unit) (w : World) (q : string) (c1 c2 : option string) :
  match w.(w_redis) with
  | Some r => redis_get (cache_key sec {| query := q; context := c1 |}) r
  | None => None end = None ->
  match w.(w_redis) with
  | Some r => redis_get (cache_key sec {| query := q; context := c2 |}) r
  | None => None end = None ->
  snd (fst (ask sec gen learn w {| query := q; context := c1 |})) =
  snd (fst (ask sec gen learn w {| query := q; context := c2 |})) /\
  w_lru (fst (fst (ask sec gen learn w {| query := q; context := c1 |}))) =
  w_lru (fst (fst (ask sec gen learn w {| query := q; context := c2 |}))).
Proof.
  intros H1 H2. unfold ask. cbv zeta. cbn [query context].
  destruct (w_redis w) as [r|] eqn:Hr; cbv beta iota in H1, H2 |- *;
    rewrite ?H1, ?H2;
    destruct (lru_call gen (w_lru w) q) as [[res lru'] called].
  all: destruct res as [result|e]; [|split; reflexivity].
  all: destruct (learn q result); cbn [fst snd w_lru]; split; reflexivity.
Qed.

Lemma ask_miss_ignores_context_witness :
  snd (fst (ask demo_secret demo_gen (fun _ _ => Ok tt) {| w_redis := Some []; w_lru := [] |}
              {| query := "555 timer"; context := Some "astable mode" |})) =
  snd (fst (ask demo_secret demo_gen (fun _ _ => Ok tt) {| w_redis := Some []; w_lru := [] |}
              {| query := "555 timer"; context := None |})).
Proof.
  exact (proj1 (ask_miss_ignores_context demo_secret demo_gen (fun _ _ => Ok tt)
                  {| w_redis := Some []; w_lru := [] |} "555 timer" (Some "astable mode") None
                  eq_refl eq_refl)).
Defined.

(** X6: when Redis has no entry, the query is not memoised and retrieval or
    generation raises, [ask] answers HTTP 500 without calling the learner,
    without writing Redis and without memoising the failure (the next call
    runs [ask_ai] again). *)
Theorem ask_generation_failure (sec : PyHash.HashSecret) (gen : string -> Exc string)
    (learn : string -> string -> Exc unit) (w : World) (req : QueryRequest) (e : PyExc) :
  match w.(w_redis) with Some r => redis_get (cache_key sec req) r | None => None end = None ->
  lru_get req.(query) w.(w_lru) = None ->
  gen req.(query) = Raise e ->
  ask sec gen learn w req = (w, error_500, [EvGenerate req.(query)]).
Proof.
  intros Hmiss Hl Hg. unfold ask. rewrite Hmiss. unfold lru_call. rewrite Hl, Hg.
  destruct w; reflexivity.
Qed.

Lemma ask_generation_failure_witness :
  ask demo_secret (fun _ => Raise (GenerationError "timeout")) (fun _ _ => Ok tt)
      {| w_redis := Some []; w_lru := [] |} demo_req =
    ({| w_redis := Some []; w_lru := [] |}, error_500, [EvGenerate demo_req.(query)]).
Proof.
  exact (ask_generation_failure demo_secret (fun _ => Raise (GenerationError "timeout"))
           (fun _ _ => Ok tt) {| w_redis := Some []; w_lru := [] |} demo_req
           (GenerationError "timeout") eq_refl eq_refl eq_refl).
Defined.

(** X7: without a Redis connection ([redis_client] is [None]) [ask] never
    answers [cached: true] and never creates a cache. *)
Theorem ask_without_redis (sec : PyHash.HashSecret) (gen : string -> Exc string)
    (learn : string -> string -> Exc unit) (w : World) (req : QueryRequest) :
  w.(w_redis) = None ->
  w_redis (fst (fst (ask sec gen learn w req))) = None /\
  forall resp, snd (fst (ask sec gen learn w req)) <> Response resp true.
Proof.
  intro Hr. unfold ask. rewrite Hr.
  destruct (lru_call gen (w_lru w) (query req)) as [[res lru'] called].
  destruct res as [result|e]; [|split; [reflexivity|intros resp H; discriminate]].
  destruct (learn (query req) result); split;
    try reflexivity; intros resp H; discriminate.
Qed.

Lemma ask_without_redis_witness :
  w_redis (fst (fst (ask demo_secret demo_gen (fun _ _ => Ok tt)
                       {| w_redis := None; w_lru := [] |} demo_req))) = None.
Proof.
  exact (proj1 (ask_without_redis demo_secret demo_gen (fun _ _ => Ok tt)
                  {| w_redis := None; w_lru := [] |} demo_req eq_refl)).
Defined.

(** X8: [ask_ai]'s [lru_cache] never holds more than 128 entries, and a
    call that raises is not memoised: the cache is left as it was. *)
Theorem lru_cache_bounded_and_failures_not_cached (c : LruCache)
    (calls : list (string * (string -> Exc string))) :
  length c <= lru_maxsize ->
  length (lru_run c calls) <= lru_maxsize /\
  (forall f q e, lru_get q c = None -> f q = Raise e -> lru_call f c q = (Raise e, c, true)).
Proof.
  intro Hc. split.
  - revert c Hc. induction calls as [|[q f] rest IH]; intros c Hc; [exact Hc|].
    simpl. apply IH. apply LruFacts.lru_call_length. exact Hc.
  - intros f q e Hg Hf. unfold lru_call. rewrite Hg, Hf. reflexivity.
Qed.

Lemma lru_cache_bounded_and_failures_not_cached_witness :
  length (lru_run [] (other_queries 300)) <= lru_maxsize.
Proof.
  exact (proj1 (lru_cache_bounded_and_failures_not_cached [] (other_queries 300)
                  ltac:(simpl; unfold lru_maxsize; lia))).
Defined.


(** X10: [/ask-stream] checks its query the way [QueryRequest] does for
    [/ask] (a missing, empty or blank query is a 400), but it streams the
    raw query, without the 1000-character cap. *)
Theorem ask_stream_validation (engine : string -> Exc StreamResult) (q : string) :
  ask_stream engine (Some q) =
    match query_not_empty q with
    | Raise _ => Raise (HTTPException 400 query_empty_msg)
    | Ok _ => Ok (ask_ai_streaming engine q)
    end /\
  ask_stream engine None = Raise (HTTPException 400 query_empty_msg).
Proof.
  unfold ask_stream, query_not_empty.
  destruct (negb (PyStr.truthy q) || negb (PyStr.truthy (PyStr.strip q))); split; reflexivity.
Qed.

Lemma forallb_rev_eq {A} (f : A -> bool) (l : list A) : forallb f (rev l) = forallb f l.
Proof.
  induction l as [|a l IH]; [reflexivity|].
  cbn [rev forallb]. rewrite forallb_app, IH. cbn [forallb].
  rewrite andb_true_r, andb_comm. reflexivity.
Qed.

Lemma blank_rev (s : string) : blank (PyStr.rev_str s) = blank s.
Proof.
  unfold blank, PyStr.rev_str. rewrite list_ascii_of_string_of_list_ascii.
  apply forallb_rev_eq.
Qed.

Lemma blank_lstrip (s : string) : blank (PyStr.lstrip s) = blank s.
Proof.
  induction s as [|c r IH]; [reflexivity|].
  cbn [PyStr.lstrip]. case_eq (PyStr.isspace c); intro Hc; [|reflexivity].
  rewrite IH. unfold blank. cbn [list_ascii_of_string forallb]. rewrite Hc. reflexivity.
Qed.

Lemma lstrip_empty_iff (s : string) : PyStr.lstrip s = "" <-> blank s = true.
Proof.
  induction s as [|c r IH]; [split; reflexivity|].
  unfold blank in *. cbn [PyStr.lstrip list_ascii_of_string forallb].
  case_eq (PyStr.isspace c); intro Hc; [exact IH|].
  split; intro H; discriminate H.
Qed.

Lemma rev_str_empty_iff (s : string) : PyStr.rev_str s = "" <-> s = "".
Proof.
  unfold PyStr.rev_str. destruct s as [|c r]; [split; reflexivity|].
  split; intro H; [exfalso|discriminate H].
  cbn [list_ascii_of_string rev] in H.
  destruct (rev (list_ascii_of_string r) ++ [c])%list as [|x l] eqn:E.
  - symmetry in E. exact (app_cons_not_nil _ _ _ E).
  - discriminate H.
Qed.

Lemma strip_empty_iff (s : string) : PyStr.strip s = "" <-> blank s = true.
Proof.
  unfold PyStr.strip. rewrite rev_str_empty_iff, lstrip_empty_iff, blank_rev, blank_lstrip.
  reflexivity.
Qed.

Lemma substring0_idem (n : nat) (s : string) : substring 0 n (substring 0 n s) = substring 0 n s.
Proof.
  revert s. induction n as [|n IH]; intros [|c r]; try reflexivity.
  cbn [substring]. rewrite IH. reflexivity.
Qed.

(** X11: the query [QueryRequest] accepts (its first 1000 characters) is
    not always accepted again: validating it once more returns it unchanged
    unless it is blank, which happens when the input's only non-whitespace
    characters lie beyond position 1000; then it is rejected. *)
Theorem query_not_empty_revalidation (v v' : string) :
  query_not_empty v = Ok v' ->
  (blank v' = false -> query_not_empty v' = Ok v') /\
  (blank v' = true -> query_not_empty v' = Raise (ValueError query_empty_msg)).
Proof.
  unfold query_not_empty at 1.
  destruct (negb (PyStr.truthy v) || negb (PyStr.truthy (PyStr.strip v))) eqn:E;
    [discriminate|].
  intro H. injection H as <-.
  apply orb_false_iff in E as [Ev _].
  assert (Ht : PyStr.truthy (PyStr.slice_to 1000 v) = true).
  { destruct v as [|c r]; [discriminate Ev|reflexivity]. }
  unfold query_not_empty. rewrite Ht. cbn [negb orb].
  split; intro Hb.
  - case_eq (PyStr.truthy (PyStr.strip (PyStr.slice_to 1000 v))); intro Hs.
    + cbn [negb]. unfold PyStr.slice_to. rewrite substring0_idem. reflexivity.
    + exfalso. destruct (PyStr.strip (PyStr.slice_to 1000 v)) eqn:Es; [|discriminate Hs].
      apply strip_empty_iff in Es. congruence.
  - apply strip_empty_iff in Hb. rewrite Hb. reflexivity.
Qed.

Lemma query_not_empty_revalidation_witness :
  let v := string_of_list_ascii (repeat " "%char 1000 ++ ["x"%char])%list in
  query_not_empty v = Ok (PyStr.slice_to 1000 v) /\
  query_not_empty (PyStr.slice_to 1000 v) = Raise (ValueError query_empty_msg).
Proof.
  intro v. split; [vm_compute; reflexivity|].
  apply (proj2 (query_not_empty_revalidation v (PyStr.slice_to 1000 v)
                  ltac:(vm_compute; reflexivity))).
  vm_compute. reflexivity.
Defined.



Lemma str_app_cancel_l (a b c : string) : a ++ b = a ++ c -> b = c.
Proof. induction a as [|x a IH]; cbn; intro H; [exact H|injection H; exact IH]. Qed.

Lemma join_inj (d f g : string) : Fs.join d f = Fs.join d g -> f = g.
Proof.
  unfold Fs.join. intro H. apply str_app_cancel_l in H.
  apply (str_app_cancel_l "/") in H. exact H.
Qed.

Lemma temp_join (f : string) : Fs.join temp_path f = Fs.join STORAGE_DIR ("temp_index/" ++ f).
Proof. reflexivity. Qed.

Lemma faiss_join : FAISS_INDEX_PATH = Fs.join STORAGE_DIR "faiss_index.index".
Proof. reflexivity. Qed.

Lemma contains_slash_temp (f : string) : PyStr.contains "/" ("temp_index/" ++ f) = true.
Proof. reflexivity. Qed.

Lemma run_ops_cons (fs : Fs.FS) (op : Fs.FsOp) (ops : list Fs.FsOp) :
  Fs.run_ops fs (op :: ops) = Fs.run_ops (Fs.apply_op fs op) ops.
Proof. reflexivity. Qed.

Lemma run_ops_app (fs : Fs.FS) (a b : list Fs.FsOp) :
  Fs.run_ops fs (a ++ b)%list = Fs.run_ops (Fs.run_ops fs a) b.
Proof. unfold Fs.run_ops. apply fold_left_app. Qed.

Lemma writes_frame (files : list (string * string)) (fs : Fs.FS) (p : string) :
  (forall n, In n (map fst files) -> Fs.join temp_path n <> p) ->
  Fs.get p (Fs.run_ops fs (map (fun nc => Fs.WriteFile (Fs.join temp_path (fst nc)) (snd nc)) files))
  = Fs.get p fs.
Proof.
  revert fs. induction files as [|[n c] rest IH]; intros fs H; [reflexivity|].
  cbn [map]. rewrite run_ops_cons, (IH _ (fun n' Hn' => H n' (or_intror Hn'))).
  cbn [Fs.apply_op fst snd]. rewrite fs_get_put.
  destruct (String.eqb_spec (Fs.join temp_path n) p) as [E|_];
    [exfalso; exact (H n (or_introl eq_refl) E)|reflexivity].
Qed.

Lemma writes_get (files : list (string * string)) (fs : Fs.FS) (n c : string) :
  NoDup (map fst files) -> In (n, c) files ->
  Fs.get (Fs.join temp_path n)
    (Fs.run_ops fs (map (fun nc => Fs.WriteFile (Fs.join temp_path (fst nc)) (snd nc)) files))
  = Some c.
Proof.
  revert fs. induction files as [|[n0 c0] rest IH]; intros fs Hnd Hin; [destruct Hin|].
  cbn [map fst] in Hnd. apply NoDup_cons_iff in Hnd as [Hn0 Hnd'].
  cbn [map]. rewrite run_ops_cons. destruct Hin as [E|Hin].
  - injection E as <- <-. rewrite writes_frame.
    + cbn [Fs.apply_op fst snd]. rewrite fs_get_put, String.eqb_refl. reflexivity.
    + intros n' Hn' Hj. apply join_inj in Hj. subst n'. contradiction.
  - apply IH; assumption.
Qed.

Lemma renames_frame (listed : list string) (fs : Fs.FS) (p : string) :
  (forall f, In f listed -> Fs.join temp_path f <> p /\ Fs.join STORAGE_DIR f <> p) ->
  Fs.get p (Fs.run_ops fs
    (map (fun f => Fs.Rename (Fs.join temp_path f) (Fs.join STORAGE_DIR f)) listed))
  = Fs.get p fs.
Proof.
  revert fs. induction listed as [|f rest IH]; intros fs H; [reflexivity|].
  cbn [map]. rewrite run_ops_cons, (IH _ (fun f' Hf' => H f' (or_intror Hf'))).
  destruct (H f (or_introl eq_refl)) as [Ht Hs].
  cbn [Fs.apply_op]. destruct (Fs.get (Fs.join temp_path f) fs); [|reflexivity].
  rewrite fs_get_put, fs_get_del.
  destruct (String.eqb_spec (Fs.join STORAGE_DIR f) p) as [E|_]; [contradiction|].
  destruct (String.eqb_spec (Fs.join temp_path f) p) as [E|_]; [contradiction|reflexivity].
Qed.

Lemma renames_get (listed : list string) (fs : Fs.FS) (f c : string) :
  NoDup listed ->
  (forall f g, In f listed -> In g listed -> Fs.join temp_path f <> Fs.join STORAGE_DIR g) ->
  In f listed -> Fs.get (Fs.join temp_path f) fs = Some c ->
  Fs.get (Fs.join STORAGE_DIR f) (Fs.run_ops fs
    (map (fun f => Fs.Rename (Fs.join temp_path f) (Fs.join STORAGE_DIR f)) listed))
  = Some c.
Proof.
  revert fs. induction listed as [|f0 rest IH]; intros fs Hnd Hdis Hin Hc; [destruct Hin|].
  apply NoDup_cons_iff in Hnd as [Hf0 Hnd'].
  cbn [map]. rewrite run_ops_cons. destruct Hin as [<-|Hin].
  - rewrite renames_frame.
    + cbn [Fs.apply_op]. rewrite Hc, fs_get_put, String.eqb_refl. reflexivity.
    + intros g Hg. split.
      * exact (Hdis g f0 (or_intror Hg) (or_introl eq_refl)).
      * intro E. apply join_inj in E. subst g. contradiction.
  - apply IH; [exact Hnd'|intros f1 g1 H1 H2; apply Hdis; right; assumption|exact Hin|].
    cbn [Fs.apply_op]. destruct (Fs.get (Fs.join temp_path f0) fs); [|exact Hc].
    rewrite fs_get_put, fs_get_del.
    destruct (String.eqb_spec (Fs.join STORAGE_DIR f0) (Fs.join temp_path f)) as [E|_].
    + exfalso. apply (Hdis f f0 (or_intror Hin) (or_introl eq_refl)). symmetry. exact E.
    + destruct (String.eqb_spec (Fs.join temp_path f0) (Fs.join temp_path f)) as [E|_];
        [apply join_inj in E; subst f0; contradiction|exact Hc].
Qed.

Lemma persist_tail_get (fs : Fs.FS) (b p : string) :
  Fs.get p (Fs.run_ops fs [Fs.RmDir temp_path; Fs.WriteFile FAISS_INDEX_PATH b;
                           Fs.MakeDirs STORAGE_DIR; Fs.WriteFile FAISS_INDEX_PATH b])
  = if String.eqb FAISS_INDEX_PATH p then Some b else Fs.get p fs.
Proof.
  unfold Fs.run_ops. cbn [fold_left Fs.apply_op]. rewrite !fs_get_put.
  destruct (String.eqb FAISS_INDEX_PATH p); reflexivity.
Qed.

(** X13: when [build_index] runs to the end, with the storage context's
    file names distinct, free of [/] and other than [faiss_index.index],
    and [os.listdir(temp_path)] listing exactly those names, the storage
    directory holds the complete new snapshot, and every path outside the
    snapshot and the temporary directory is as before. *)
Theorem build_index_persist_completes (storage_files : Index -> list (string * string))
    (faiss_bytes : Index -> string) (idx : Index) (listed : list string) (fs : Fs.FS) :
  NoDup (map fst (storage_files idx)) ->
  NoDup listed ->
  (forall f, In f listed <-> In f (map fst (storage_files idx))) ->
  (forall n, In n (map fst (storage_files idx)) ->
     PyStr.contains "/" n = false /\ n <> "faiss_index.index") ->
  snapshot_view (snapshot_paths storage_files idx)
    (Fs.run_ops fs (build_persist_ops storage_files faiss_bytes idx listed))
  = snapshot_of storage_files faiss_bytes idx /\
  (forall p, p <> FAISS_INDEX_PATH ->
     (forall n, In n (map fst (storage_files idx)) ->
        p <> Fs.join temp_path n /\ p <> Fs.join STORAGE_DIR n) ->
     Fs.get p (Fs.run_ops fs (build_persist_ops storage_files faiss_bytes idx listed))
     = Fs.get p fs).
Proof.
  intros Hnd Hnl Hsame Hnames.
  assert (Hdis : forall f g, In g (map fst (storage_files idx)) ->
                   Fs.join temp_path f <> Fs.join STORAGE_DIR g).
  { intros f g Hg E. rewrite temp_join in E. apply join_inj in E.
    destruct (Hnames g Hg) as [Hs _]. rewrite <- E, contains_slash_temp in Hs.
    discriminate Hs. }
  unfold build_persist_ops. rewrite !run_ops_app.
  split.
  - unfold snapshot_view, snapshot_paths, snapshot_of. cbn [map].
    rewrite persist_tail_get, String.eqb_refl. f_equal.
    rewrite map_map. apply map_ext_in. intros [n c] Hin. cbn [fst snd].
    assert (Hn : In n (map fst (storage_files idx))).
    { change n with (fst (n, c)). apply in_map. exact Hin. }
    rewrite persist_tail_get.
    destruct (String.eqb_spec FAISS_INDEX_PATH (Fs.join STORAGE_DIR n)) as [E|_].
    + exfalso. rewrite faiss_join in E. apply join_inj in E.
      apply (proj2 (Hnames n Hn)). symmetry. exact E.
    + apply renames_get; [exact Hnl| |apply Hsame; exact Hn|].
      * intros f g _ Hg. apply Hdis, Hsame, Hg.
      * apply writes_get; assumption.
  - intros p HpF Hp. rewrite persist_tail_get.
    destruct (String.eqb_spec FAISS_INDEX_PATH p) as [E|_]; [congruence|].
    rewrite renames_frame.
    + rewrite writes_frame; [reflexivity|].
      intros n Hn E. apply (proj1 (Hp n Hn)). symmetry. exact E.
    + intros f Hf. apply Hsame in Hf. destruct (Hp f Hf) as [H1 H2].
      split; intro E; symmetry in E; contradiction.
Qed.

Lemma build_index_persist_completes_witness :
  snapshot_view (snapshot_paths demo_storage_files demo_index_new)
    (Fs.run_ops disk_with_old_snapshot demo_build_ops)
  = snapshot_of demo_storage_files demo_faiss_bytes demo_index_new.
Proof.
  apply (proj1 (build_index_persist_completes demo_storage_files demo_faiss_bytes demo_index_new
                  (map fst (demo_storage_files demo_index_new)) disk_with_old_snapshot
                  ltac:(vm_compute; repeat constructor; cbn; intuition discriminate)
                  ltac:(vm_compute; repeat constructor; cbn; intuition discriminate)
                  (fun f => conj (fun H => H) (fun H => H))
                  ltac:(intros n Hn; vm_compute in Hn;
                        destruct Hn as [<-|[<-|[<-|[]]]]; split;
                        [reflexivity|discriminate|reflexivity|discriminate|reflexivity|discriminate]))).
Defined.

Lemma persist_final_faiss (storage_files : Index -> list (string * string))
    (faiss_bytes : Index -> string) (idx : Index) (listed : list string) (fs : Fs.FS) :
  Fs.get FAISS_INDEX_PATH (Fs.run_ops fs (build_persist_ops storage_files faiss_bytes idx listed))
  = Some (faiss_bytes idx).
Proof.
  unfold build_persist_ops. rewrite !run_ops_app, persist_tail_get, String.eqb_refl.
  reflexivity.
Qed.

Lemma persist_final_get (storage_files : Index -> list (string * string))
    (faiss_bytes : Index -> string) (idx : Index) (listed : list string) (fs : Fs.FS)
    (n c : string) :
  NoDup (map fst (storage_files idx)) ->
  NoDup listed ->
  (forall f, In f listed <-> In f (map fst (storage_files idx))) ->
  (forall n, In n (map fst (storage_files idx)) ->
     PyStr.contains "/" n = false /\ n <> "faiss_index.index") ->
  In (n, c) (storage_files idx) ->
  Fs.get (Fs.join STORAGE_DIR n)
    (Fs.run_ops fs (build_persist_ops storage_files faiss_bytes idx listed)) = Some c.
Proof.
  intros Hnd Hnl Hsame Hnames Hin.
  assert (Hn : In n (map fst (storage_files idx))).
  { change n with (fst (n, c)). apply in_map. exact Hin. }
  unfold build_persist_ops. rewrite !run_ops_app, persist_tail_get.
  destruct (String.eqb_spec FAISS_INDEX_PATH (Fs.join STORAGE_DIR n)) as [E|_].
  - exfalso. rewrite faiss_join in E. apply join_inj in E.
    apply (proj2 (Hnames n Hn)). symmetry. exact E.
  - apply renames_get; [exact Hnl| |apply Hsame; exact Hn|].
    + intros f g _ Hg E. apply Hsame in Hg. rewrite temp_join in E. apply join_inj in E.
      destruct (Hnames g Hg) as [Hs _]. rewrite <- E, contains_slash_temp in Hs.
      discriminate Hs.
    + apply writes_get; assumption.
Qed.


Definition toy_json_object (s : string) : option unit :=
  if PyStr.startswith "{" s then Some tt else None.

(** X15: a disk on which [build_index] has run to the end (the conditions of
    X13) passes [validate_index_files] when its two JSON files parse, and
    yet the next [load_or_build_index] does not use it: it calls
    [build_index()] again, exactly once, and returns what that returns. *)
Theorem build_index_then_load_rebuilds (J F St : Type)
    (json_loads : string -> option J) (faiss_read_index : string -> option F)
    (storage_from_defaults : Fs.FS -> option St) (build : nat -> Exc Index)
    (storage_files : Index -> list (string * string)) (faiss_bytes : Index -> string)
    (idx : Index) (listed : list string) (fs : Fs.FS) (d i : string) :
  NoDup (map fst (storage_files idx)) ->
  NoDup listed ->
  (forall f, In f listed <-> In f (map fst (storage_files idx))) ->
  (forall n, In n (map fst (storage_files idx)) ->
     PyStr.contains "/" n = false /\ n <> "faiss_index.index") ->
  In ("docstore.json", d) (storage_files idx) ->
  In ("index_store.json", i) (storage_files idx) ->
  json_loads d <> None -> json_loads i <> None ->
  validate_index_files J json_loads
    (Fs.run_ops fs (build_persist_ops storage_files faiss_bytes idx listed)) = true /\
  load_or_build_index J json_loads F faiss_read_index St storage_from_defaults build
    (Fs.run_ops fs (build_persist_ops storage_files faiss_bytes idx listed))
  = (let* idx' := build 0 in Ok (Rebuilt F St idx')).
Proof.
  intros Hnd Hnl Hsame Hnames Hd Hi Hjd Hji.
  assert (Hv : validate_index_files J json_loads
                 (Fs.run_ops fs (build_persist_ops storage_files faiss_bytes idx listed)) = true).
  { rewrite validate_index_files_cases, persist_final_faiss.
    unfold DOCSTORE_PATH, INDEX_STORE_PATH.
    rewrite (persist_final_get storage_files faiss_bytes idx listed fs "docstore.json" d),
            (persist_final_get storage_files faiss_bytes idx listed fs "index_store.json" i);
      try assumption.
    destruct (json_loads d); [|contradiction].
    destruct (json_loads i); [|contradiction].
    reflexivity. }
  split; [exact Hv|].
  rewrite load_or_build_index_unfold, Hv. reflexivity.
Qed.

Lemma build_index_then_load_rebuilds_witness :
  validate_index_files unit toy_json_object (Fs.run_ops disk_with_old_snapshot demo_build_ops)
    = true /\
  load_or_build_index unit toy_json_object nat (fun s => Some (String.length s)) unit toy_storage
    (fun _ => Ok demo_index_new) (Fs.run_ops disk_with_old_snapshot demo_build_ops)
  = Ok (Rebuilt nat unit demo_index_new).
Proof.
  apply (build_index_then_load_rebuilds unit nat unit toy_json_object
           (fun s => Some (String.length s)) toy_storage (fun _ => Ok demo_index_new)
           demo_storage_files demo_faiss_bytes demo_index_new
           (map fst (demo_storage_files demo_index_new)) disk_with_old_snapshot
           (snd (nth 0 (demo_storage_files demo_index_new) ("", "")))
           (snd (nth 1 (demo_storage_files demo_index_new) ("", "")))).
  - vm_compute. repeat constructor; cbn; intuition discriminate.
  - vm_compute. repeat constructor; cbn; intuition discriminate.
  - intro f. split; intro H; exact H.
  - intros n Hn. vm_compute in Hn.
    destruct Hn as [<-|[<-|[<-|[]]]]; split; (reflexivity || discriminate).
  - vm_compute. left. reflexivity.
  - vm_compute. right. left. reflexivity.
  - vm_compute. discriminate.
  - vm_compute. discriminate.
Defined.


